(** * Cow-Breed-Detection: the recognition adapter and its shell

    A shallow embedding of [src/services/geminiService.ts] (the adapter,
    [recognizeCowBreed]) and of the [App] component (the shell: its five
    pieces of React state and its three handlers), with the properties the
    specification states about them.

    JavaScript values are modelled as they exist at run time: the TypeScript
    annotations of the source ([BreedInfo], [string]) are erased and check
    nothing, so the decoded response is an arbitrary value. *)

From Stdlib Require Import Ascii String Floats.
From stdpp Require Import gmap strings list.

Set Warnings "-register-all,-inexact-float".
Local Open Scope string_scope.

(** ** Run-time values *)

(** A number is an IEEE 754 double, an object a finite map from property
    names to values. [VError name message] is an instance of [Error] (or of
    a subclass, [name] telling which); its message is text, as the [Error]
    constructor makes it. *)
Inductive value : Type :=
| VUndefined
| VNull
| VBool (b : bool)
| VNum (x : float)
| VStr (s : string)
| VArr (items : list value)
| VObj (props : gmap string value)
| VError (name message : string).

(** A completion: a statement or call either yields a value or throws one. *)
Inductive completion (A : Type) : Type :=
| Normal (a : A)
| Abrupt (thrown : value).
Arguments Normal {A} a.
Arguments Abrupt {A} thrown.

(** ToBoolean: [if (v)], [!v], [v && ...]. *)
Definition truthy (v : value) : bool :=
  match v with
  | VUndefined | VNull => false
  | VBool b => b
  | VNum x => negb (PrimFloat.eqb x 0%float) && PrimFloat.eqb x x
  | VStr s => negb (String.eqb s "")
  | VArr _ | VObj _ | VError _ _ => true
  end.

(** [v instanceof Error]. *)
Definition instanceof_Error (v : value) : bool :=
  match v with
  | VError _ _ => true
  | _ => false
  end.

(** Whether the character [c] occurs in [s]. *)
Fixpoint occurs (c : Ascii.ascii) (s : string) : bool :=
  match s with
  | EmptyString => false
  | String d rest => Ascii.eqb d c || occurs c rest
  end.

(** [s.split(sep)] for a one-character separator. *)
Fixpoint split_on (sep : Ascii.ascii) (s : string) : list string :=
  match s with
  | EmptyString => [EmptyString]
  | String c rest =>
      if Ascii.eqb c sep then EmptyString :: split_on sep rest
      else match split_on sep rest with
           | piece :: pieces => String c piece :: pieces
           | [] => [String c EmptyString]
           end
  end.

(** What the JavaScript engine provides and the source only calls:
    [String.prototype.trim], [JSON.parse] (which returns the decoded value or
    throws a [SyntaxError], whose message is given on the left) and the text
    of the [TypeError] raised by a property read on [null] or [undefined]. *)
Record engine : Type := {
  trim : string -> string;
  JSON_parse : string -> string + value;
  TypeError_message : value -> string -> string
}.

Section Values.
Context (E : engine).

(** [v.p], for the property names this program reads ([error], [breed],
    [message]): none of them is defined by a built-in prototype, so a
    primitive, an array or an object without the key gives [undefined]. *)
Definition get (v : value) (p : string) : completion value :=
  match v with
  | VUndefined | VNull => Abrupt (VError "TypeError" (TypeError_message E v p))
  | VObj props => Normal (default VUndefined (props !! p))
  | VError name message =>
      Normal (if String.eqb p "message" then VStr message
              else if String.eqb p "name" then VStr name
              else VUndefined)
  | VBool _ | VNum _ | VStr _ | VArr _ => Normal VUndefined
  end.

(** [JSON.parse(s)] as a completion. *)
Definition parse (s : string) : completion value :=
  match JSON_parse E s with
  | inl message => Abrupt (VError "SyntaxError" message)
  | inr v => Normal v
  end.
End Values.

(** ** The adapter: src/services/geminiService.ts *)

Module Adapter.

(** The SDK's [Type] enumeration, as far as the schema uses it. *)
Inductive Type_ : Set := OBJECT | STRING | NUMBER.

Record property_schema : Type := {
  prop_type : Type_;
  prop_description : string
}.

(** [required] is the SDK's optional list of mandatory properties. *)
Record schema : Type := {
  schema_type : Type_;
  properties : list (string * property_schema);
  required : option (list string)
}.

Inductive part : Type :=
| TextPart (text : string)
| InlineDataPart (data mimeType : string).

Record generation_config : Type := {
  responseMimeType : string;
  responseSchema : schema
}.

Record request : Type := {
  req_model : string;
  req_contents : list part;
  req_config : generation_config
}.

(** The two generation methods of [ai.models]. *)
Inductive method : Set := generateContent_method | generateContentStream_method.

(** One outbound call, as the service sees it. *)
Record api_call : Type := {
  call_apiKey : string;
  call_method : method;
  call_request : request
}.

(** The SDK's response: its [text] accessor gives a string or [undefined]. *)
Record response : Type := { text : option string }.

(** The client object, [new GoogleGenAI({ apiKey })]. *)
Record GoogleGenAI : Type := { apiKey : string }.

(** The world outside the adapter: the remote service, which answers the
    n-th call it receives with a response or a fault (of any shape), the
    calls made so far, and the console. *)
Record world : Type := {
  service : nat -> api_call -> completion response;
  calls : list api_call;
  console : list (list value)
}.

(** Computations that may throw and that act on the world. *)
Definition M (A : Type) : Type := world -> completion A * world.

Definition ret {A} (a : A) : M A := fun w => (Normal a, w).

Definition bind {A B} (m : M A) (k : A -> M B) : M B :=
  fun w =>
    match m w with
    | (Normal a, w') => k a w'
    | (Abrupt v, w') => (Abrupt v, w')
    end.

Definition lift {A} (c : completion A) : M A := fun w => (c, w).

(** [try { body } catch (e) { handler e }]. *)
Definition try_catch {A} (body : M A) (handler : value -> M A) : M A :=
  fun w =>
    match body w with
    | (Normal a, w') => (Normal a, w')
    | (Abrupt v, w') => handler v w'
    end.

Notation "'let!' x ':=' m 'in' k" := (bind m (fun x => k))
  (at level 10, x pattern, m at level 100, k at level 200).

Definition record_call (c : api_call) (w : world) : world :=
  {| service := service w; calls := calls w ++ [c]; console := console w |}.

Definition record_console (args : list value) (w : world) : world :=
  {| service := service w; calls := calls w; console := console w ++ [args] |}.

Definition generateContent_call (ai : GoogleGenAI) (req : request) : api_call :=
  {| call_apiKey := apiKey ai;
     call_method := generateContent_method;
     call_request := req |}.

(** [await ai.models.generateContent(req)]: the call is recorded and the
    caller resumes with the service's answer. *)
Definition generateContent (ai : GoogleGenAI) (req : request) : M response :=
  fun w =>
    let c := generateContent_call ai req in
    (service w (length (calls w)) c, record_call c w).

(** [console.error(...args)]. *)
Definition console_error (args : list value) : M unit :=
  fun w => (Normal tt, record_console args w).

(** Lines 9-15: the module's top level. [process.env.API_KEY] is a string
    or [undefined], and [!undefined] holds. *)
Definition module_init (env_API_KEY : option string) : completion GoogleGenAI :=
  match env_API_KEY with
  | Some API_KEY =>
      if negb (truthy (VStr API_KEY))
      then Abrupt (VError "Error" "API_KEY environment variable is not set.")
      else Normal {| apiKey := API_KEY |}
  | None => Abrupt (VError "Error" "API_KEY environment variable is not set.")
  end.

Definition model : string := "gemini-2.5-flash".

Definition breedInfoSchema : schema :=
  {| schema_type := OBJECT;
     properties :=
       [ ("breed",
          {| prop_type := STRING;
             prop_description := "The identified breed of the cow. e.g., 'Holstein Friesian', 'Angus', 'Hereford'." |});
         ("description",
          {| prop_type := STRING;
             prop_description := "A brief, interesting one-paragraph description of the breed's characteristics, origin, or primary use." |});
         ("confidence",
          {| prop_type := NUMBER;
             prop_description := "A confidence score from 0.0 to 1.0 on the breed identification." |});
         ("error",
          {| prop_type := STRING;
             prop_description := "An error message if a cow is not detected in the image. e.g., 'No cow was detected in the provided image.'" |}) ];
     required := None |}.

Definition prompt : string :=
  "Analyze the image of this cow. Focus on its features like coloration, body structure, and head shape to identify its breed. Provide the places where this breed popularly found. If the image does not clearly show a cow, please indicate that. Provide a confidence score for your identification.".

Definition could_not_determine : string :=
  "Could not determine the breed. The image may not contain a cow.".

Definition unexpected_error : string :=
  "An unexpected error occurred during breed recognition.".

(** The object literal [{ error: v }]. *)
Definition error_object (v : value) : value := VObj {[ "error" := v ]}.

Section Recognize.
Context (E : engine) (ai : GoogleGenAI).

(** The request of lines 43-63. *)
Definition build_request (imageBase64 mimeType : string) : request :=
  let imagePart := InlineDataPart imageBase64 mimeType in
  let textPart := TextPart prompt in
  {| req_model := model;
     req_contents := [textPart; imagePart];
     req_config := {| responseMimeType := "application/json";
                      responseSchema := breedInfoSchema |} |}.

(** [response.text.trim()]: a [TypeError] when [text] is [undefined]. *)
Definition response_text_trim (r : response) : completion string :=
  match text r with
  | Some s => Normal (trim E s)
  | None => Abrupt (VError "TypeError" (TypeError_message E VUndefined "trim"))
  end.

(** Lines 68-76, on the decoded [result]. *)
Definition validate (result : value) : M value :=
  let! err := lift (get E result "error") in
  if truthy err then ret (error_object err)
  else
    let! breed := lift (get E result "breed") in
    if negb (truthy breed) then ret (error_object (VStr could_not_determine))
    else ret result.

(** Lines 42-76: the body of the [try]. *)
Definition try_body (imageBase64 mimeType : string) : M value :=
  let! resp := generateContent ai (build_request imageBase64 mimeType) in
  let! jsonString := lift (response_text_trim resp) in
  let! result := lift (parse E jsonString) in
  validate result.

(** Lines 78-84: the [catch] clause. The first branch is
    [error instanceof Error], where [error.message] is the instance's
    message. *)
Definition catch_clause (error : value) : M value :=
  let! _ := console_error [VStr "Error calling Gemini API:"; error] in
  match error with
  | VError _ message => ret (error_object (VStr ("API Error: " ++ message)))
  | _ => ret (error_object (VStr unexpected_error))
  end.

Definition recognizeCowBreed (imageBase64 mimeType : string) : M value :=
  try_catch (try_body imageBase64 mimeType) catch_clause.

(** The call that [recognizeCowBreed] makes, and the service's answer to
    it in the world [w]. *)
Definition recognize_call (imageBase64 mimeType : string) : api_call :=
  generateContent_call ai (build_request imageBase64 mimeType).

Definition service_answer (imageBase64 mimeType : string) (w : world)
  : completion response :=
  service w (length (calls w)) (recognize_call imageBase64 mimeType).
End Recognize.

(** The test the source applies to a field of an object, [if (result.p)]:
    the field is present and its value is not empty (for text: not the
    empty string). *)
Definition populated (props : gmap string value) (p : string) : bool :=
  truthy (default VUndefined (props !! p)).

(** The same test on a returned [BreedInfo]. *)
Definition arm_populated (r : value) (p : string) : bool :=
  match r with
  | VObj props => populated props p
  | _ => false
  end.

(** The decoded values that are neither objects nor [null]: booleans,
    numbers, texts and arrays. *)
Definition plain (v : value) : bool :=
  match v with
  | VBool _ | VNum _ | VStr _ | VArr _ => true
  | _ => false
  end.

(** What importing the module gives: its one export, closed over [ai]. *)
Record exports : Type := {
  export_recognizeCowBreed : string -> string -> M value
}.

Definition import_module (E : engine) (env_API_KEY : option string) : completion exports :=
  match module_init env_API_KEY with
  | Normal ai => Normal {| export_recognizeCowBreed := recognizeCowBreed E ai |}
  | Abrupt e => Abrupt e
  end.

End Adapter.

(** ** The shell: the [App] component *)

Module Shell.

(** A browser [File]: its name and its media type. *)
Record File : Type := { file_name : string; file_type : string }.

(** The five [useState] cells; [None] is [null]. *)
Record state : Type := {
  imageFile : option File;
  imageUrl : option string;
  breedInfo : option value;
  isLoading : bool;
  error : option value
}.

Definition initial : state :=
  {| imageFile := None; imageUrl := None; breedInfo := None;
     isLoading := false; error := None |}.

Definition setImageFile (v : option File) (s : state) : state :=
  {| imageFile := v; imageUrl := imageUrl s; breedInfo := breedInfo s;
     isLoading := isLoading s; error := error s |}.

Definition setImageUrl (v : option string) (s : state) : state :=
  {| imageFile := imageFile s; imageUrl := v; breedInfo := breedInfo s;
     isLoading := isLoading s; error := error s |}.

Definition setBreedInfo (v : option value) (s : state) : state :=
  {| imageFile := imageFile s; imageUrl := imageUrl s; breedInfo := v;
     isLoading := isLoading s; error := error s |}.

Definition setIsLoading (v : bool) (s : state) : state :=
  {| imageFile := imageFile s; imageUrl := imageUrl s; breedInfo := breedInfo s;
     isLoading := v; error := error s |}.

Definition setError (v : option value) (s : state) : state :=
  {| imageFile := imageFile s; imageUrl := imageUrl s; breedInfo := breedInfo s;
     isLoading := isLoading s; error := v |}.

(** Lines 16-23. [url] is what [URL.createObjectURL(file)] returns. *)
Definition handleImageChange (file : option File) (url : string) (s : state) : state :=
  match file with
  | Some f =>
      setError None (setBreedInfo None (setImageUrl (Some url) (setImageFile (Some f) s)))
  | None => s
  end.

(** Lines 58-64. *)
Definition handleReset (s : state) : state :=
  setIsLoading false (setError None (setBreedInfo None
    (setImageUrl None (setImageFile None s)))).

(** Line 81: the Recognize button's [disabled] attribute. *)
Definition recognize_disabled (s : state) : bool :=
  match imageFile s with
  | Some _ => isLoading s
  | None => true
  end.

(** Line 86: the Clear button is rendered when [imageUrl] is truthy. *)
Definition clear_rendered (s : state) : bool :=
  match imageUrl s with
  | Some u => negb (String.eqb u "")
  | None => false
  end.

(** A [FileReader] started by [handleRecognize] and not yet finished: it is
    reading, or its [onload] callback waits for [recognizeCowBreed], called
    with the arguments kept here. *)
Inductive phase : Type :=
| Reading
| Recognizing (imageBase64 : value) (mimeType : string).

Record task : Type := { task_file : File; task_phase : phase }.

(** A browser session: the component's state and the callbacks in flight,
    by reader. *)
Record session : Type := {
  ui : state;
  tasks : gmap nat task;
  readers : nat
}.

Definition start : session := {| ui := initial; tasks := ∅; readers := 0 |}.

Definition with_ui (f : state -> state) (x : session) : session :=
  {| ui := f (ui x); tasks := tasks x; readers := readers x |}.

Definition recognizing (t : task) : bool :=
  match task_phase t with
  | Recognizing _ _ => true
  | Reading => false
  end.

(** The calls of [recognizeCowBreed] that have not returned yet. *)
Definition outstanding (x : session) : gmap nat task :=
  filter (fun it => recognizing (snd it) = true) (tasks x).

Section Handlers.
Context (E : engine).

(** Lines 25-56, up to the registration of the callbacks. [fault] is what
    [new FileReader()] or [readAsDataURL] throws, if either does. *)
Definition handleRecognize (fault : option value) (x : session) : session :=
  match imageFile (ui x) with
  | None => with_ui (setError (Some (VStr "Please upload an image first."))) x
  | Some file =>
      let x1 := with_ui (fun s => setBreedInfo None (setError None (setIsLoading true s))) x in
      match fault with
      | None =>
          {| ui := ui x1;
             tasks := <[readers x := {| task_file := file; task_phase := Reading |}]> (tasks x);
             readers := S (readers x) |}
      | Some err =>
          let message :=
            match err with
            | VError _ m => VStr m
            | _ => VStr "An unknown error occurred."
            end in
          with_ui (fun s => setIsLoading false (setError (Some message) s)) x1
      end
  end.

(** Lines 38-40: [reader.onload], up to the [await]. *)
Definition reader_onload (id : nat) (result : string) (x : session) : session :=
  match tasks x !! id with
  | Some {| task_file := file; task_phase := Reading |} =>
      let base64String :=
        match split_on ","%char result !! 1%nat with
        | Some piece => VStr piece
        | None => VUndefined
        end in
      {| ui := ui x;
         tasks := <[id := {| task_file := file;
                             task_phase := Recognizing base64String (file_type file) |}]> (tasks x);
         readers := readers x |}
  | _ => x
  end.

(** Lines 41-46: [reader.onload], once [recognizeCowBreed] has returned
    [result]. A property read that throws ends the callback there. *)
Definition reader_onload_resume (id : nat) (result : value) (x : session) : session :=
  match tasks x !! id with
  | Some {| task_file := _; task_phase := Recognizing _ _ |} =>
      let done := {| ui := ui x; tasks := delete id (tasks x); readers := readers x |} in
      match get E result "error" with
      | Normal err =>
          if truthy err
          then with_ui (fun s => setIsLoading false (setError (Some err) s)) done
          else with_ui (fun s => setIsLoading false (setBreedInfo (Some result) s)) done
      | Abrupt _ => done
      end
  | _ => x
  end.

(** Lines 48-51: [reader.onerror]. *)
Definition reader_onerror (id : nat) (x : session) : session :=
  match tasks x !! id with
  | Some {| task_file := _; task_phase := Reading |} =>
      with_ui (fun s => setIsLoading false
                 (setError (Some (VStr "Failed to read the image file.")) s))
        {| ui := ui x; tasks := delete id (tasks x); readers := readers x |}
  | _ => x
  end.

(** What can happen in a session. A click reaches its handler only when
    the button is rendered and enabled. *)
Inductive event : Type :=
| ImageChange (file : option File) (url : string)
| ClickRecognize (fault : option value)
| ClickClear
| ReaderLoad (id : nat) (result : string)
| ReaderError (id : nat)
| AdapterReturn (id : nat) (result : value).

Definition step (x : session) (e : event) : session :=
  match e with
  | ImageChange file url => with_ui (handleImageChange file url) x
  | ClickRecognize fault =>
      if recognize_disabled (ui x) then x else handleRecognize fault x
  | ClickClear =>
      if clear_rendered (ui x) then with_ui handleReset x else x
  | ReaderLoad id result => reader_onload id result x
  | ReaderError id => reader_onerror id x
  | AdapterReturn id result => reader_onload_resume id result x
  end.

Definition run (es : list event) (x : session) : session := fold_left step es x.
End Handlers.

(** What the busy flag is meant to ensure: at most one reader in flight,
    and none when the flag is down. *)
Definition single_flight (x : session) : Prop :=
  size (tasks x) <= 1 /\ (isLoading (ui x) = false -> tasks x = ∅).

Definition is_clear (e : event) : bool :=
  match e with
  | ClickClear => true
  | _ => false
  end.

(** Lines 98-111: the result panel. The tests are truthiness tests, in
    this order. [Broken] is the render that throws: line 102 puts the
    error into the page as a child, and React refuses an object there, so
    that nothing is shown. *)
Inductive view : Type :=
| Loader
| ErrorMessage (error : value)
| ResultDisplay (breedInfo : value)
| Placeholder
| Broken.

(** What React accepts as a child, [{v}]: texts and numbers (shown),
    booleans, [null] and [undefined] (shown as nothing), and arrays of
    such; no object, [Error] instances included. *)
Fixpoint renderable (v : value) : bool :=
  match v with
  | VUndefined | VNull | VBool _ | VNum _ | VStr _ => true
  | VArr items => forallb renderable items
  | VObj _ | VError _ _ => false
  end.

Definition truthy_cell (c : option value) : bool :=
  match c with
  | Some v => truthy v
  | None => false
  end.

Definition panel (s : state) : view :=
  if isLoading s then Loader
  else if truthy_cell (error s) then
    match error s with
    | Some e => if renderable e then ErrorMessage e else Broken
    | None => Placeholder
    end
  else if truthy_cell (breedInfo s) then
    match breedInfo s with
    | Some b => ResultDisplay b
    | None => Placeholder
    end
  else Placeholder.

(** Line 84: the label of the Recognize button. *)
Definition recognize_label (s : state) : string :=
  if isLoading s then "Recognizing..." else "Recognize Breed".

(** Line 39: [result.split(',')[1]], a string or [undefined]. *)
Definition base64String (result : string) : value :=
  match split_on ","%char result !! 1%nat with
  | Some piece => VStr piece
  | None => VUndefined
  end.

(** The selected file and its URL come and go together. *)
Definition paired (s : state) : Prop :=
  imageFile s = None <-> imageUrl s = None.

(** At most one of the error and the result is held, and neither while a
    reader is in flight. *)
Definition one_outcome (x : session) : Prop :=
  (tasks x <> ∅ -> error (ui x) = None /\ breedInfo (ui x) = None) /\
  (error (ui x) = None \/ breedInfo (ui x) = None).

End Shell.

(** ** Sample data *)

Module Samples.
Import Adapter Shell.

(** An engine whose parser gives one result for every text, and a world
    whose service gives one answer to every call. *)
Definition engine_decoding (decoded : string + value) : engine :=
  {| trim := fun s => s;
     JSON_parse := fun _ => decoded;
     TypeError_message := fun _ p => "Cannot read properties (reading '" ++ p ++ "')" |}.

Definition world_answering (answer : completion response) : world :=
  {| service := fun _ _ => answer; calls := []; console := [] |}.

(** The two scenarios of the specification, and a reply with an
    out-of-range confidence and an empty [error]. *)
Definition holstein : gmap string value :=
  {[ "breed" := VStr "Holstein Friesian";
     "description" := VStr "A dairy breed, black and white.";
     "confidence" := VNum 0.92%float ]}.

Definition no_cow : gmap string value :=
  {[ "error" := VStr "No cow was detected in the provided image.";
     "breed" := VStr "Dog" ]}.

Definition overconfident : gmap string value :=
  {[ "breed" := VStr "Angus"; "confidence" := VNum 1.5%float; "error" := VStr "" ]}.

Definition no_breed : gmap string value :=
  {[ "description" := VStr "?"; "breed" := VStr "" ]}.

Definition ai0 : GoogleGenAI := {| apiKey := "key" |}.

Definition replied : world := world_answering (Normal {| text := Some "reply" |}).

Definition network_down : world :=
  world_answering (Abrupt (VError "TypeError" "Failed to fetch")).

Definition cow1 : File := {| file_name := "cow1.png"; file_type := "image/png" |}.

Definition cow2 : File := {| file_name := "cow2.jpg"; file_type := "image/jpeg" |}.

(** A session that waits for the adapter's answer about [cow1]. *)
Definition awaiting : session :=
  {| ui := {| imageFile := Some cow1; imageUrl := Some "blob:1"; breedInfo := None;
              isLoading := true; error := None |};
     tasks := {[ 0 := {| task_file := cow1;
                         task_phase := Recognizing (VStr "aGVsbG8=") "image/png" |} ]};
     readers := 1 |}.

(** A session whose reader is still reading [cow1]. *)
Definition reading : session :=
  {| ui := {| imageFile := Some cow1; imageUrl := Some "blob:1"; breedInfo := None;
              isLoading := true; error := None |};
     tasks := {[ 0 := {| task_file := cow1; task_phase := Reading |} ]};
     readers := 1 |}.

(** A recognition from the choice of the image to the result. *)
Definition plain_recognition : list event :=
  [ ImageChange (Some cow1) "blob:1";
    ClickRecognize None;
    ReaderLoad 0 "data:image/png;base64,AAAA";
    AdapterReturn 0 (VObj holstein) ].

(** A session with [cow1] chosen and nothing started. *)
Definition picked : session :=
  {| ui := {| imageFile := Some cow1; imageUrl := Some "blob:1"; breedInfo := None;
              isLoading := false; error := None |};
     tasks := ∅;
     readers := 0 |}.

(** A session: recognize a first image, press Clear while the call is out,
    choose a second image and recognize it. *)
Definition clear_then_retry : list event :=
  [ ImageChange (Some cow1) "blob:1";
    ClickRecognize None;
    ReaderLoad 0 "data:image/png;base64,AAAA";
    ClickClear;
    ImageChange (Some cow2) "blob:2";
    ClickRecognize None;
    ReaderLoad 1 "data:image/jpeg;base64,BBBB" ].

End Samples.

(** ** Properties of the adapter *)

Module AdapterSpec.
Import Adapter Samples.

Ltac unfold_adapter :=
  unfold recognizeCowBreed, try_catch, try_body, validate, catch_clause,
    bind, lift, ret, generateContent, console_error, response_text_trim,
    parse, service_answer, recognize_call in *;
  simpl in *.

Section Facts.
Context (E : engine) (ai : GoogleGenAI).
Implicit Types (image mimeType txt : string) (w : world)
  (props : gmap string value).

(** The run of the [try] body when the service answers with text that
    decodes to an object: only [validate] remains. *)
Lemma try_body_decoded image mimeType w txt decoded :
  service_answer ai image mimeType w = Normal {| text := Some txt |} ->
  JSON_parse E (trim E txt) = inr decoded ->
  try_body E ai image mimeType w =
  validate E decoded (record_call (recognize_call ai image mimeType) w).
Proof.
  intros Hanswer Hparse. unfold_adapter. rewrite Hanswer. simpl.
  rewrite Hparse. reflexivity.
Qed.

Lemma recognize_decoded image mimeType w txt decoded r :
  service_answer ai image mimeType w = Normal {| text := Some txt |} ->
  JSON_parse E (trim E txt) = inr decoded ->
  (forall w1, (validate E decoded w1).1 = Normal r) ->
  (recognizeCowBreed E ai image mimeType w).1 = Normal r.
Proof.
  intros Hanswer Hparse Hvalid.
  unfold recognizeCowBreed, try_catch.
  rewrite (try_body_decoded _ _ _ _ _ Hanswer Hparse).
  specialize (Hvalid (record_call (recognize_call ai image mimeType) w)).
  destruct (validate E decoded _) as [[a|e] w1]; simpl in *; congruence.
Qed.

(** [validate] on an object, by the two tests of the source. *)
Lemma validate_object props w :
  validate E (VObj props) w =
  (Normal (if populated props "error"
           then error_object (default VUndefined (props !! "error"))
           else if populated props "breed" then VObj props
           else error_object (VStr could_not_determine)), w).
Proof.
  unfold validate, bind, lift, ret, populated. simpl.
  destruct (truthy (default VUndefined (props !! "error"))); [reflexivity|].
  destruct (truthy (default VUndefined (props !! "breed"))); reflexivity.
Qed.

Lemma populated_text props p s :
  props !! p = Some (VStr s) -> populated props p = negb (String.eqb s "").
Proof. intros H. unfold populated. rewrite H. reflexivity. Qed.

Lemma nonempty_eqb s : s <> "" -> String.eqb s "" = false.
Proof. intros H. apply String.eqb_neq. exact H. Qed.

(** C1. When the response decodes to an object whose [error] field is a
    non-empty text, [recognizeCowBreed] returns the failure arm
    [{ error }] with exactly that text, whatever the object's other
    fields are. *)
Theorem recognize_error_field image mimeType w txt props err :
  service_answer ai image mimeType w = Normal {| text := Some txt |} ->
  JSON_parse E (trim E txt) = inr (VObj props) ->
  props !! "error" = Some (VStr err) ->
  err <> "" ->
  (recognizeCowBreed E ai image mimeType w).1 = Normal (error_object (VStr err)).
Proof.
  intros Hanswer Hparse Herr Hne.
  apply (recognize_decoded _ _ _ _ _ _ Hanswer Hparse). intros w1.
  rewrite validate_object, (populated_text _ _ _ Herr), (nonempty_eqb _ Hne), Herr.
  reflexivity.
Qed.

(** C2. When the response decodes to an object with no populated [error]
    field and no populated [breed] field (each absent or empty),
    [recognizeCowBreed] returns the failure arm with the fixed message
    that the breed could not be determined and that the image may not
    contain a cow. *)
Theorem recognize_breed_missing image mimeType w txt props :
  service_answer ai image mimeType w = Normal {| text := Some txt |} ->
  JSON_parse E (trim E txt) = inr (VObj props) ->
  populated props "error" = false ->
  populated props "breed" = false ->
  (recognizeCowBreed E ai image mimeType w).1 =
  Normal (error_object
    (VStr "Could not determine the breed. The image may not contain a cow.")).
Proof.
  intros Hanswer Hparse Herr Hbreed.
  apply (recognize_decoded _ _ _ _ _ _ Hanswer Hparse). intros w1.
  rewrite validate_object, Herr, Hbreed. reflexivity.
Qed.

(** C3. When the response decodes to an object with a non-empty [breed]
    and no populated [error] field, [recognizeCowBreed] returns the
    decoded object itself: its [breed], [description] and [confidence]
    are the decoded ones, whatever they are (no clamping of the
    confidence, no change to the texts). *)
Theorem recognize_success_unmodified image mimeType w txt props breed :
  service_answer ai image mimeType w = Normal {| text := Some txt |} ->
  JSON_parse E (trim E txt) = inr (VObj props) ->
  props !! "breed" = Some (VStr breed) ->
  breed <> "" ->
  populated props "error" = false ->
  (recognizeCowBreed E ai image mimeType w).1 = Normal (VObj props).
Proof.
  intros Hanswer Hparse Hbreed Hne Herr.
  apply (recognize_decoded _ _ _ _ _ _ Hanswer Hparse). intros w1.
  rewrite validate_object, Herr, (populated_text _ _ _ Hbreed), (nonempty_eqb _ Hne).
  reflexivity.
Qed.

(** Where the [try] body throws: the call faults, the response has no
    text, the text does not decode, or it decodes to [null]. *)
Lemma try_body_call_faults image mimeType w e :
  service_answer ai image mimeType w = Abrupt e ->
  (try_body E ai image mimeType w).1 = Abrupt e.
Proof. intros H. unfold_adapter. rewrite H. reflexivity. Qed.

Lemma try_body_no_text image mimeType w :
  service_answer ai image mimeType w = Normal {| text := None |} ->
  (try_body E ai image mimeType w).1 =
  Abrupt (VError "TypeError" (TypeError_message E VUndefined "trim")).
Proof. intros H. unfold_adapter. rewrite H. reflexivity. Qed.

Lemma try_body_malformed image mimeType w txt message :
  service_answer ai image mimeType w = Normal {| text := Some txt |} ->
  JSON_parse E (trim E txt) = inl message ->
  (try_body E ai image mimeType w).1 = Abrupt (VError "SyntaxError" message).
Proof. intros H Hp. unfold_adapter. rewrite H. simpl. rewrite Hp. reflexivity. Qed.

Lemma try_body_null image mimeType w txt :
  service_answer ai image mimeType w = Normal {| text := Some txt |} ->
  JSON_parse E (trim E txt) = inr VNull ->
  (try_body E ai image mimeType w).1 =
  Abrupt (VError "TypeError" (TypeError_message E VNull "error")).
Proof.
  intros H Hp. rewrite (try_body_decoded _ _ _ _ _ H Hp). reflexivity.
Qed.

(** The [catch] clause returns, with a failure arm. *)
Lemma catch_clause_returns e w :
  catch_clause e w =
  (Normal (error_object (VStr
     match e with
     | VError _ message => "API Error: " ++ message
     | _ => unexpected_error
     end)),
   record_console [VStr "Error calling Gemini API:"; e] w).
Proof. unfold catch_clause, bind, console_error, ret. destruct e; reflexivity. Qed.

(** Whatever the body of a [try] does, with this [catch] clause the
    statement returns. *)
Lemma catch_absorbs (body : M value) w :
  exists r w',
    try_catch body catch_clause w = (Normal r, w') /\
    forall e, (body w).1 = Abrupt e ->
      exists message, r = error_object (VStr message) /\ message <> "".
Proof.
  unfold try_catch. destruct (body w) as [[a|e] w1].
  - exists a, w1. split; [reflexivity|]. intros e He. discriminate He.
  - rewrite catch_clause_returns. eexists _, _. split; [reflexivity|].
    intros e' _. eexists. split; [reflexivity|].
    destruct e; discriminate.
Qed.

(** C4. [recognizeCowBreed] never throws: every run returns a value, and
    when anything in the [try] body throws (the call to the service, the
    read of the response text, the decoding, a property read) the value
    returned is the failure arm with a non-empty message. *)
Theorem recognize_never_throws image mimeType w :
  exists r w',
    recognizeCowBreed E ai image mimeType w = (Normal r, w') /\
    forall e, (try_body E ai image mimeType w).1 = Abrupt e ->
      exists message, r = error_object (VStr message) /\ message <> "".
Proof. apply (catch_absorbs (try_body E ai image mimeType) w). Qed.

(** C5, amended. The [catch] clause branches on the class of the value
    caught, not on its message: when that value is an [Error] instance,
    the failure arm's text is [API Error: ] followed by the instance's
    message, even an empty one; when it is anything else, the text is
    the fixed generic message. *)
Theorem recognize_caught_fault image mimeType w e :
  (try_body E ai image mimeType w).1 = Abrupt e ->
  (forall name message, e = VError name message ->
     (recognizeCowBreed E ai image mimeType w).1 =
     Normal (error_object (VStr ("API Error: " ++ message)))) /\
  (instanceof_Error e = false ->
     (recognizeCowBreed E ai image mimeType w).1 =
     Normal (error_object
       (VStr "An unexpected error occurred during breed recognition."))).
Proof.
  intros He. unfold recognizeCowBreed, try_catch.
  destruct (try_body E ai image mimeType w) as [[a|e'] w1]; simpl in He;
    [discriminate He|].
  injection He as ->. rewrite catch_clause_returns. simpl. split.
  - intros name message ->. reflexivity.
  - intros Hn. destruct e; try reflexivity. discriminate Hn.
Qed.

(** C6. The value returned is success or failure and not both: exactly
    one of its [breed] and [error] fields is populated. *)
Theorem recognize_one_arm image mimeType w :
  exists r,
    (recognizeCowBreed E ai image mimeType w).1 = Normal r /\
    xorb (arm_populated r "breed") (arm_populated r "error") = true.
Proof.
  unfold recognizeCowBreed, try_catch.
  destruct (try_body E ai image mimeType w) as [[a|e] w1] eqn:Hbody.
  - exists a. split; [reflexivity|].
    revert Hbody. unfold_adapter.
    destruct (service w _ _) as [[[txt|]]|e]; simpl; try discriminate.
    destruct (JSON_parse E (trim E txt)) as [m|decoded]; simpl; try discriminate.
    destruct decoded; simpl; try discriminate;
      try (intros [= <- _]; reflexivity).
    destruct (truthy (default VUndefined (props !! "error"))) eqn:Herr; simpl.
    + intros [= <- _]. unfold error_object, arm_populated, populated.
      rewrite lookup_singleton_ne by discriminate.
      rewrite lookup_singleton_eq. simpl. rewrite Herr. reflexivity.
    + destruct (truthy (default VUndefined (props !! "breed"))) eqn:Hbreed; simpl.
      * intros [= <- _]. unfold arm_populated, populated.
        rewrite Hbreed, Herr. reflexivity.
      * intros [= <- _]. reflexivity.
  - rewrite catch_clause_returns. eexists. split; [reflexivity|].
    unfold error_object, arm_populated, populated.
    rewrite lookup_singleton_ne by discriminate.
    rewrite lookup_singleton_eq. destruct e; reflexivity.
Qed.

(** C8. An invocation makes exactly one call to the service, a
    [generateContent] call (not the streaming one) carrying the request
    built from the arguments, whether the call succeeds or faults; and
    the caller goes on only with the outcome of that call: the whole run
    is the rest of the function (the read of the text, the decoding, the
    checks, under the same [catch]) applied to what the service answered,
    in the world where the call is recorded. So a fault of the call comes
    back as the failure made from that fault, and a response comes back
    as what it decodes to. *)
Theorem recognize_one_call image mimeType w :
  calls (recognizeCowBreed E ai image mimeType w).2
  = (calls w ++ [recognize_call ai image mimeType])%list /\
  call_method (recognize_call ai image mimeType) = generateContent_method /\
  call_request (recognize_call ai image mimeType) = build_request image mimeType /\
  (forall w0,
    service_answer ai image mimeType w0 = service_answer ai image mimeType w ->
    (recognizeCowBreed E ai image mimeType w0).1
    = (recognizeCowBreed E ai image mimeType w).1) /\
  recognizeCowBreed E ai image mimeType w
  = try_catch
      (let! resp := lift (service_answer ai image mimeType w) in
       let! jsonString := lift (response_text_trim E resp) in
       let! result := lift (parse E jsonString) in
       validate E result)
      catch_clause
      (record_call (recognize_call ai image mimeType) w) /\
  (forall e,
    service_answer ai image mimeType w = Abrupt e ->
    (recognizeCowBreed E ai image mimeType w).1
    = Normal (error_object (VStr
        match e with
        | VError _ message => "API Error: " ++ message
        | _ => "An unexpected error occurred during breed recognition."
        end))) /\
  (forall txt props breed,
    service_answer ai image mimeType w = Normal {| text := Some txt |} ->
    JSON_parse E (trim E txt) = inr (VObj props) ->
    props !! "breed" = Some (VStr breed) ->
    breed <> "" ->
    populated props "error" = false ->
    (recognizeCowBreed E ai image mimeType w).1 = Normal (VObj props)).
Proof.
  split; [|split; [reflexivity|split; [reflexivity|split; [|split; [|split]]]]].
  - unfold_adapter.
    destruct (service w _ _) as [[[txt|]]|e]; simpl;
      try reflexivity; try (destruct e; reflexivity).
    destruct (JSON_parse E (trim E txt)) as [m|decoded]; simpl; try reflexivity.
    destruct decoded; simpl; try reflexivity.
    destruct (truthy (default VUndefined (props !! "error"))); simpl; [reflexivity|].
    destruct (truthy (default VUndefined (props !! "breed"))); reflexivity.
  - intros w0 Hsame. unfold_adapter. rewrite Hsame.
    destruct (service w _ _) as [[[txt|]]|e]; simpl;
      try reflexivity; try (destruct e; reflexivity).
    destruct (JSON_parse E (trim E txt)) as [m|decoded]; simpl; try reflexivity.
    destruct decoded; simpl; try reflexivity.
    destruct (truthy (default VUndefined (props !! "error"))); simpl; [reflexivity|].
    destruct (truthy (default VUndefined (props !! "breed"))); reflexivity.
  - reflexivity.
  - intros e He. unfold_adapter. rewrite He. destruct e; reflexivity.
  - intros txt props breed Hanswer Hparse Hbreed Hne Herr.
    apply (recognize_decoded _ _ _ _ _ _ Hanswer Hparse). intros w1.
    rewrite validate_object, Herr, (populated_text _ _ _ Hbreed), (nonempty_eqb _ Hne).
    reflexivity.
Qed.
End Facts.

Lemma recognize_error_field_witness :
  (recognizeCowBreed (engine_decoding (inr (VObj no_cow))) ai0 "aGVsbG8=" "image/png" replied).1
  = Normal (error_object (VStr "No cow was detected in the provided image.")).
Proof.
  apply (recognize_error_field (engine_decoding (inr (VObj no_cow))) ai0
           "aGVsbG8=" "image/png" replied "reply" no_cow).
  - reflexivity.
  - reflexivity.
  - vm_compute. reflexivity.
  - discriminate.
Defined.

Lemma recognize_breed_missing_witness :
  (recognizeCowBreed
     (engine_decoding (inr (VObj no_breed)))
     ai0 "aGVsbG8=" "image/png" replied).1
  = Normal (error_object
      (VStr "Could not determine the breed. The image may not contain a cow.")).
Proof.
  apply (recognize_breed_missing
           (engine_decoding (inr (VObj no_breed)))
           ai0 "aGVsbG8=" "image/png" replied "reply"
           no_breed).
  - reflexivity.
  - reflexivity.
  - vm_compute. reflexivity.
  - vm_compute. reflexivity.
Defined.

Lemma recognize_success_unmodified_witness :
  (recognizeCowBreed (engine_decoding (inr (VObj overconfident))) ai0
     "aGVsbG8=" "image/png" replied).1 = Normal (VObj overconfident).
Proof.
  apply (recognize_success_unmodified (engine_decoding (inr (VObj overconfident))) ai0
           "aGVsbG8=" "image/png" replied "reply" overconfident "Angus").
  - reflexivity.
  - reflexivity.
  - vm_compute. reflexivity.
  - discriminate.
  - vm_compute. reflexivity.
Defined.

Lemma recognize_caught_fault_witness :
  (recognizeCowBreed (engine_decoding (inr (VObj holstein))) ai0
     "aGVsbG8=" "image/png" network_down).1
  = Normal (error_object (VStr "API Error: Failed to fetch")).
Proof.
  apply (proj1 (recognize_caught_fault (engine_decoding (inr (VObj holstein))) ai0
                  "aGVsbG8=" "image/png" network_down
                  (VError "TypeError" "Failed to fetch") eq_refl)
           "TypeError" "Failed to fetch" eq_refl).
Defined.

(** The scenarios of the specification, run. *)
Example scenario_holstein :
  (recognizeCowBreed (engine_decoding (inr (VObj holstein))) ai0
     "aGVsbG8=" "image/png" replied).1 = Normal (VObj holstein).
Proof. vm_compute. reflexivity. Qed.

Example scenario_malformed :
  (recognizeCowBreed (engine_decoding (inl "Unexpected end of JSON input")) ai0
     "aGVsbG8=" "image/png" replied).1
  = Normal (error_object (VStr "API Error: Unexpected end of JSON input")).
Proof. vm_compute. reflexivity. Qed.

(** C5, as stated, fails: a fault that carries no descriptive message, an
    [Error] whose message is empty, does not get the generic message but
    the bare marker. *)
Lemma caught_empty_message_not_generic :
  let returned :=
    (recognizeCowBreed (engine_decoding (inr (VObj holstein))) ai0 "aGVsbG8=" "image/png"
       (world_answering (Abrupt (VError "Error" "")))).1 in
  returned = Normal (error_object (VStr "API Error: ")) /\
  returned <> Normal (error_object
                (VStr "An unexpected error occurred during breed recognition.")).
Proof.
  split; [vm_compute; reflexivity|].
  intros H. apply (f_equal (fun c => match c with
                                     | Normal r => get (engine_decoding (inl "")) r "error"
                                     | Abrupt e => Abrupt e
                                     end)) in H.
  vm_compute in H. discriminate H.
Qed.

(** A thrown text, however descriptive, is not an [Error] instance and gets
    the generic message. *)
Example caught_thrown_text :
  (recognizeCowBreed (engine_decoding (inr (VObj holstein))) ai0 "aGVsbG8=" "image/png"
     (world_answering (Abrupt (VStr "quota exceeded")))).1
  = Normal (error_object (VStr "An unexpected error occurred during breed recognition.")).
Proof. vm_compute. reflexivity. Qed.

(** C7. Without the credential the module's top level throws, so the
    module exports nothing and [recognizeCowBreed] cannot be called; and
    this is the only fault that is not turned into a result: whenever the
    import succeeds the credential was present, and every call of the
    exported function returns a value. *)
Theorem missing_credential_is_fatal (E : engine) :
  import_module E None
  = Abrupt (VError "Error" "API_KEY environment variable is not set.") /\
  forall env_API_KEY m,
    import_module E env_API_KEY = Normal m ->
    (exists key, env_API_KEY = Some key /\ key <> "") /\
    forall image mimeType w,
      exists r w', export_recognizeCowBreed m image mimeType w = (Normal r, w').
Proof.
  split; [reflexivity|].
  intros env_API_KEY m. unfold import_module, module_init.
  destruct env_API_KEY as [key|]; [|discriminate].
  simpl. destruct (String.eqb key "") eqn:Hkey; simpl; [discriminate|].
  intros [= <-]. split.
  - exists key. split; [reflexivity|]. apply String.eqb_neq. exact Hkey.
  - intros image mimeType w. simpl.
    destruct (catch_absorbs (try_body E {| apiKey := key |} image mimeType) w)
      as (r & w' & Hrun & _).
    exists r, w'. exact Hrun.
Qed.

(** The empty credential is treated as the missing one. *)
Example empty_credential (E : engine) :
  import_module E (Some "")
  = Abrupt (VError "Error" "API_KEY environment variable is not set.").
Proof. reflexivity. Qed.

End AdapterSpec.

(** ** Properties of the shell *)

Module ShellSpec.
Import Shell Samples.

Section Facts.
Context (E : engine).
Implicit Types (x : session) (s : state) (e : event) (es : list event).

(** C10. With no file the image-change handler returns the state it was
    given (selected file, image URL, result, error and busy flag as they
    were), also as a step of the session; with a file it stores the file
    and its URL, clears the result and the error and keeps the busy
    flag. *)
Theorem handleImageChange_null_is_noop url s x :
  handleImageChange None url s = s /\
  step E x (ImageChange None url) = x /\
  forall file,
    handleImageChange (Some file) url s =
    {| imageFile := Some file; imageUrl := Some url; breedInfo := None;
       isLoading := isLoading s; error := None |}.
Proof.
  split; [reflexivity|]. split.
  - destruct x. reflexivity.
  - intros file. reflexivity.
Qed.

(** While the busy flag is up the Recognize button is disabled: a click
    changes nothing and starts nothing. *)
Lemma busy_blocks_recognize x fault :
  isLoading (ui x) = true -> step E x (ClickRecognize fault) = x.
Proof.
  intros Hbusy. simpl. unfold recognize_disabled. rewrite Hbusy.
  destruct (imageFile (ui x)); reflexivity.
Qed.

(** [handleRecognize] raises the flag in the step that starts the reader,
    before [recognizeCowBreed] is called. *)
Lemma recognize_raises_flag x file :
  imageFile (ui x) = Some file ->
  isLoading (ui (handleRecognize None x)) = true /\
  tasks (handleRecognize None x) !! readers x
  = Some {| task_file := file; task_phase := Reading |}.
Proof.
  intros Hfile. unfold handleRecognize. rewrite Hfile. simpl.
  split; [reflexivity|]. apply lookup_insert_eq.
Qed.

Lemma delete_last (m : gmap nat task) id :
  size m <= 1 -> is_Some (m !! id) -> delete id m = ∅.
Proof.
  intros Hsize Hin. apply map_size_empty_inv.
  rewrite map_size_delete_Some by exact Hin. lia.
Qed.

Lemma single_flight_start : single_flight start.
Proof.
  split; [|reflexivity].
  change (size (∅ : gmap nat task) <= 1). rewrite map_size_empty. lia.
Qed.

(** Every event but a click on Clear keeps it. *)
Lemma single_flight_step x e : is_clear e = false -> single_flight x -> single_flight (step E x e).
Proof.
  intros Hclear [Hsize Hidle]. destruct e as [file url|fault| |id result|id|id result];
    simpl in *; try discriminate.
  - (* ImageChange *)
    destruct file; split; simpl; auto.
  - (* ClickRecognize *)
    unfold recognize_disabled, handleRecognize.
    destruct (imageFile (ui x)) as [file|] eqn:Hfile; [|split; simpl; auto].
    destruct (isLoading (ui x)) eqn:Hbusy;
      [split; simpl; [exact Hsize | intros Hoff; congruence]|].
    specialize (Hidle eq_refl).
    destruct fault as [err|]; split; simpl; auto; try discriminate.
    rewrite Hidle, map_size_insert_None, map_size_empty by apply lookup_empty. lia.
  - (* ReaderLoad *)
    unfold reader_onload.
    destruct (tasks x !! id) as [[file [|b64 mime]]|] eqn:Hid; try (split; auto; fail).
    split; simpl.
    + rewrite map_size_insert_Some by eauto. exact Hsize.
    + intros Hoff. rewrite (Hidle Hoff) in Hid. rewrite lookup_empty in Hid. discriminate.
  - (* ReaderError *)
    unfold reader_onerror.
    destruct (tasks x !! id) as [[file [|b64 mime]]|] eqn:Hid; try (split; auto; fail).
    assert (delete id (tasks x) = ∅) as Hnone by (apply delete_last; eauto).
    split; simpl; rewrite Hnone; [rewrite map_size_empty; lia | reflexivity].
  - (* AdapterReturn *)
    unfold reader_onload_resume.
    destruct (tasks x !! id) as [[file [|b64 mime]]|] eqn:Hid; try (split; auto; fail).
    assert (delete id (tasks x) = ∅) as Hnone by (apply delete_last; eauto).
    destruct (get E result "error") as [err|thrown];
      [destruct (truthy err)|]; split; simpl; rewrite Hnone;
      try (rewrite map_size_empty; lia); reflexivity.
Qed.

(** As long as Clear is not pressed, at most one call of the adapter is
    outstanding, and the busy flag is up while it is. *)
Lemma single_flight_run es x :
  forallb (fun e => negb (is_clear e)) es = true -> single_flight x -> single_flight (run E es x).
Proof.
  revert x. induction es as [|e es IH]; intros x Hes Hx; [exact Hx|].
  simpl in Hes. apply andb_prop in Hes as [He Hes].
  apply (IH _ Hes). apply single_flight_step; [|exact Hx].
  destruct (is_clear e); [discriminate|reflexivity].
Qed.

Lemma single_flight_outstanding x : single_flight x -> size (outstanding x) <= 1.
Proof.
  intros [Hsize _]. unfold outstanding.
  etransitivity; [apply map_subseteq_size, map_filter_subseteq | exact Hsize].
Qed.

(** C9, as the code has it: pressing Clear while a recognition is
    outstanding lowers the busy flag although the call has not returned;
    once another image is chosen the Recognize button is enabled again,
    and a second recognition starts: two calls of the adapter are
    outstanding at once. *)
Theorem clear_defeats_busy_flag :
  let before := run E (take 3 clear_then_retry) start in
  let cleared := run E (take 4 clear_then_retry) start in
  let chosen := run E (take 5 clear_then_retry) start in
  let after := run E clear_then_retry start in
  let first_call :=
    {| task_file := cow1; task_phase := Recognizing (VStr "AAAA") "image/png" |} in
  let second_call :=
    {| task_file := cow2; task_phase := Recognizing (VStr "BBBB") "image/jpeg" |} in
  (isLoading (ui before) = true /\ outstanding before !! 0 = Some first_call) /\
  (isLoading (ui cleared) = false /\ outstanding cleared !! 0 = Some first_call) /\
  (recognize_disabled (ui chosen) = false /\ outstanding chosen !! 0 = Some first_call) /\
  (outstanding after !! 0 = Some first_call /\
   outstanding after !! 1 = Some second_call /\
   size (outstanding after) = 2).
Proof. vm_compute. repeat split. Qed.
End Facts.

(** The first call's result, when it arrives, is shown for the second image
    and lowers the flag under the second call. *)
Example stale_result_after_clear :
  let x := run (engine_decoding (inr VNull))
             (clear_then_retry ++ [AdapterReturn 0 (VObj holstein)]) start in
  imageFile (ui x) = Some cow2 /\
  breedInfo (ui x) = Some (VObj holstein) /\
  isLoading (ui x) = false /\
  size (outstanding x) = 1.
Proof. vm_compute. repeat split. Qed.

(** Without Clear it holds along a whole recognition. *)
Example single_flight_plain_run :
  single_flight (run (engine_decoding (inr VNull))
           [ ImageChange (Some cow1) "blob:1"; ClickRecognize None;
             ReaderLoad 0 "data:image/png;base64,AAAA";
             AdapterReturn 0 (VObj holstein) ]
           start).
Proof.
  apply (single_flight_run (engine_decoding (inr VNull))); [reflexivity | apply single_flight_start].
Qed.

End ShellSpec.

(** ** Further properties of the adapter *)

Module AdapterMore.
Import Adapter Samples AdapterSpec.

Section Facts.
Context (E : engine) (ai : GoogleGenAI).
Implicit Types (image mimeType txt : string) (w : world)
  (props : gmap string value).

(** The [try] body acts on the world by its one call only. *)
Lemma try_body_world image mimeType w :
  (try_body E ai image mimeType w).2
  = record_call (recognize_call ai image mimeType) w.
Proof.
  unfold_adapter.
  destruct (service w _ _) as [[[txt|]]|e]; simpl; try reflexivity.
  destruct (JSON_parse E (trim E txt)) as [m|decoded]; simpl; try reflexivity.
  destruct decoded; simpl; try reflexivity.
  destruct (truthy (default VUndefined (props !! "error"))); simpl; [reflexivity|].
  destruct (truthy (default VUndefined (props !! "breed"))); reflexivity.
Qed.

(** What is returned when the [try] body throws [e]. *)
Lemma recognize_of_thrown image mimeType w e :
  (try_body E ai image mimeType w).1 = Abrupt e ->
  (recognizeCowBreed E ai image mimeType w).1 =
  Normal (error_object (VStr
    match e with
    | VError _ message => "API Error: " ++ message
    | _ => unexpected_error
    end)).
Proof.
  intros He. unfold recognizeCowBreed, try_catch.
  destruct (try_body E ai image mimeType w) as [[a|e'] w1]; simpl in He;
    [discriminate He|].
  injection He as ->. rewrite catch_clause_returns. reflexivity.
Qed.

(** X1. The console gets one entry, the caught value after a fixed label,
    exactly when the [try] body throws; a run that returns from the body,
    also with a failure arm, writes nothing. *)
Theorem console_only_on_fault image mimeType w :
  console (recognizeCowBreed E ai image mimeType w).2 =
  match (try_body E ai image mimeType w).1 with
  | Normal _ => console w
  | Abrupt e => (console w ++ [[VStr "Error calling Gemini API:"; e]])%list
  end.
Proof.
  pose proof (try_body_world image mimeType w) as Hw.
  unfold recognizeCowBreed, try_catch.
  destruct (try_body E ai image mimeType w) as [[a|e] w1]; simpl in *; subst w1.
  - reflexivity.
  - rewrite catch_clause_returns. reflexivity.
Qed.

(** X2. A response that decodes to a boolean, a number, a text or an
    array has no fields: the result is the fixed failure that the breed
    could not be determined. *)
Theorem recognize_plain_value image mimeType w txt decoded :
  service_answer ai image mimeType w = Normal {| text := Some txt |} ->
  JSON_parse E (trim E txt) = inr decoded ->
  plain decoded = true ->
  (recognizeCowBreed E ai image mimeType w).1 =
  Normal (error_object
    (VStr "Could not determine the breed. The image may not contain a cow.")).
Proof.
  intros Hanswer Hparse Hplain.
  apply (recognize_decoded _ _ _ _ _ _ _ _ Hanswer Hparse). intros w1.
  destruct decoded; try discriminate Hplain; reflexivity.
Qed.

(** X3. A response that decodes to [null] makes the read of [error] throw
    a [TypeError], which comes back as an [API Error:] failure carrying the
    engine's message. *)
Theorem recognize_null image mimeType w txt :
  service_answer ai image mimeType w = Normal {| text := Some txt |} ->
  JSON_parse E (trim E txt) = inr VNull ->
  (recognizeCowBreed E ai image mimeType w).1 =
  Normal (error_object (VStr ("API Error: " ++ TypeError_message E VNull "error"))).
Proof.
  intros Hanswer Hparse.
  apply (recognize_of_thrown _ _ _ _ (try_body_null _ _ _ _ _ _ Hanswer Hparse)).
Qed.

(** X4. A response without text makes [response.text.trim()] throw a
    [TypeError]; the result is an [API Error:] failure carrying the
    engine's message. *)
Theorem recognize_no_text image mimeType w :
  service_answer ai image mimeType w = Normal {| text := None |} ->
  (recognizeCowBreed E ai image mimeType w).1 =
  Normal (error_object
    (VStr ("API Error: " ++ TypeError_message E VUndefined "trim"))).
Proof.
  intros Hanswer.
  apply (recognize_of_thrown _ _ _ _ (try_body_no_text _ _ _ _ _ Hanswer)).
Qed.

(** X5. A text that the parser rejects comes back as an [API Error:]
    failure carrying the parser's message. *)
Theorem recognize_malformed image mimeType w txt message :
  service_answer ai image mimeType w = Normal {| text := Some txt |} ->
  JSON_parse E (trim E txt) = inl message ->
  (recognizeCowBreed E ai image mimeType w).1 =
  Normal (error_object (VStr ("API Error: " ++ message))).
Proof.
  intros Hanswer Hparse.
  apply (recognize_of_thrown _ _ _ _ (try_body_malformed _ _ _ _ _ _ _ Hanswer Hparse)).
Qed.

(** X6. An [error] field of any kind that passes the truthiness test (a
    number, an array, an object, not only a text) is returned as it is,
    alone: the result has no other field, whatever the decoded object
    had. *)
Theorem recognize_error_any image mimeType w txt props v :
  service_answer ai image mimeType w = Normal {| text := Some txt |} ->
  JSON_parse E (trim E txt) = inr (VObj props) ->
  props !! "error" = Some v ->
  truthy v = true ->
  (recognizeCowBreed E ai image mimeType w).1 = Normal (error_object v) /\
  forall p, p <> "error" -> get E (error_object v) p = Normal VUndefined.
Proof.
  intros Hanswer Hparse Herr Hv. split.
  - apply (recognize_decoded _ _ _ _ _ _ _ _ Hanswer Hparse). intros w1.
    rewrite validate_object. unfold populated. rewrite Herr. simpl. rewrite Hv.
    reflexivity.
  - intros p Hp. unfold error_object. simpl.
    rewrite lookup_singleton_ne by congruence. reflexivity.
Qed.

(** The two shapes of a returned value. *)
Lemma recognize_shape image mimeType w :
  exists r,
    (recognizeCowBreed E ai image mimeType w).1 = Normal r /\
    ((exists v, r = error_object v /\ truthy v = true) \/
     (exists props, r = VObj props /\
        populated props "error" = false /\ populated props "breed" = true)).
Proof.
  unfold recognizeCowBreed, try_catch.
  destruct (try_body E ai image mimeType w) as [[a|e] w1] eqn:Hbody.
  - exists a. split; [reflexivity|].
    revert Hbody. unfold_adapter.
    destruct (service w _ _) as [[[txt|]]|e]; simpl; try discriminate.
    destruct (JSON_parse E (trim E txt)) as [m|decoded]; simpl; try discriminate.
    destruct decoded; simpl; try discriminate;
      try (intros [= <- _]; left; eexists; split; reflexivity).
    destruct (truthy (default VUndefined (props !! "error"))) eqn:Herr; simpl.
    + intros [= <- _]. left. eexists. split; [reflexivity|exact Herr].
    + destruct (truthy (default VUndefined (props !! "breed"))) eqn:Hbreed; simpl.
      * intros [= <- _]. right. exists props. auto.
      * intros [= <- _]. left. eexists. split; reflexivity.
  - rewrite catch_clause_returns. eexists. split; [reflexivity|].
    left. eexists. split; [reflexivity|]. destruct e; reflexivity.
Qed.

(** X7. A failure returned by [recognizeCowBreed] never carries a part of
    a success: whenever the returned value has a populated [error], it is
    an object with that one field, so its [breed], [description] and
    [confidence] are [undefined]. *)
Theorem failure_has_no_payload image mimeType w :
  exists r,
    (recognizeCowBreed E ai image mimeType w).1 = Normal r /\
    (arm_populated r "error" = true ->
     get E r "breed" = Normal VUndefined /\
     get E r "description" = Normal VUndefined /\
     get E r "confidence" = Normal VUndefined).
Proof.
  destruct (recognize_shape image mimeType w)
    as (r & Hr & [(v & -> & Hv)|(props & -> & He & Hb)]);
    (eexists; split; [exact Hr|]).
  - intros _. unfold error_object. simpl.
    rewrite !lookup_singleton_ne by discriminate. auto.
  - simpl. intros Hpop. congruence.
Qed.

(** X8. The value returned passes the checks of lines 68-76 unchanged:
    validating it again gives it back. *)
Theorem result_is_stable image mimeType w :
  exists r,
    (recognizeCowBreed E ai image mimeType w).1 = Normal r /\
    forall w1, validate E r w1 = (Normal r, w1).
Proof.
  destruct (recognize_shape image mimeType w)
    as (r & Hr & [(v & -> & Hv)|(props & -> & He & Hb)]);
    (eexists; split; [exact Hr|]); intros w1; unfold error_object;
    rewrite validate_object.
  - unfold populated. rewrite lookup_singleton_eq. simpl.
    rewrite Hv. reflexivity.
  - rewrite He, Hb. reflexivity.
Qed.
(** The world after a run: the call is recorded, and the console entry
    when the body threw; the service itself is as before. *)
Lemma recognize_world image mimeType w :
  service (recognizeCowBreed E ai image mimeType w).2 = service w /\
  calls (recognizeCowBreed E ai image mimeType w).2
  = (calls w ++ [recognize_call ai image mimeType])%list.
Proof.
  pose proof (try_body_world image mimeType w) as Hw.
  unfold recognizeCowBreed, try_catch.
  destruct (try_body E ai image mimeType w) as [[a|e] w1]; simpl in *; subst w1.
  - split; reflexivity.
  - rewrite catch_clause_returns. split; reflexivity.
Qed.

(** X10. The adapter keeps nothing between invocations: of two
    invocations in a row, each makes its own call, in order, and the
    second is answered by the service as its next call, whatever the first
    one sent or returned. *)
Theorem invocations_are_independent image1 mimeType1 image2 mimeType2 w :
  let w1 := (recognizeCowBreed E ai image1 mimeType1 w).2 in
  let w2 := (recognizeCowBreed E ai image2 mimeType2 w1).2 in
  calls w2 = (calls w ++ [recognize_call ai image1 mimeType1;
                          recognize_call ai image2 mimeType2])%list /\
  service_answer ai image2 mimeType2 w1
  = service w (S (length (calls w))) (recognize_call ai image2 mimeType2).
Proof.
  intros w1 w2.
  destruct (recognize_world image1 mimeType1 w) as [Hs1 Hc1].
  destruct (recognize_world image2 mimeType2 w1) as [_ Hc2].
  fold w1 in Hs1, Hc1. fold w2 in Hc2. split.
  - rewrite Hc2, Hc1, <- app_assoc. reflexivity.
  - unfold service_answer. rewrite Hs1, Hc1, length_app. simpl.
    rewrite Nat.add_1_r. reflexivity.
Qed.
End Facts.

(** X9. With a non-empty [API_KEY] in the environment the import succeeds,
    and every call that the exported function makes carries exactly that
    key, with the fixed model and the request built from the arguments. *)
Theorem credential_reaches_service (E : engine) (key : string) :
  key <> "" ->
  exists m,
    import_module E (Some key) = Normal m /\
    forall image mimeType w,
      calls (export_recognizeCowBreed m image mimeType w).2 =
      (calls w ++ [ {| call_apiKey := key;
                       call_method := generateContent_method;
                       call_request := build_request image mimeType |} ])%list.
Proof.
  intros Hkey. unfold import_module, module_init. simpl.
  rewrite (nonempty_eqb _ Hkey). simpl. eexists. split; [reflexivity|].
  intros image mimeType w. simpl.
  pose proof (try_body_world E {| apiKey := key |} image mimeType w) as Hw.
  unfold recognizeCowBreed, try_catch.
  destruct (try_body E {| apiKey := key |} image mimeType w) as [[a|e] w1];
    simpl in *; subst w1; [reflexivity|].
  rewrite catch_clause_returns. reflexivity.
Qed.

Lemma recognize_plain_value_witness :
  (recognizeCowBreed (engine_decoding (inr (VArr [VNum 3%float]))) ai0
     "aGVsbG8=" "image/png" replied).1
  = Normal (error_object
      (VStr "Could not determine the breed. The image may not contain a cow.")).
Proof.
  apply (recognize_plain_value (engine_decoding (inr (VArr [VNum 3%float]))) ai0
           "aGVsbG8=" "image/png" replied "reply" (VArr [VNum 3%float]));
    reflexivity.
Defined.

Lemma recognize_null_witness :
  (recognizeCowBreed (engine_decoding (inr VNull)) ai0
     "aGVsbG8=" "image/png" replied).1
  = Normal (error_object
      (VStr "API Error: Cannot read properties (reading 'error')")).
Proof.
  apply (recognize_null (engine_decoding (inr VNull)) ai0
           "aGVsbG8=" "image/png" replied "reply"); reflexivity.
Defined.

Lemma recognize_no_text_witness :
  (recognizeCowBreed (engine_decoding (inr (VObj holstein))) ai0
     "aGVsbG8=" "image/png" (world_answering (Normal {| text := None |}))).1
  = Normal (error_object
      (VStr "API Error: Cannot read properties (reading 'trim')")).
Proof.
  apply (recognize_no_text (engine_decoding (inr (VObj holstein))) ai0
           "aGVsbG8=" "image/png" (world_answering (Normal {| text := None |})));
    reflexivity.
Defined.

Lemma recognize_malformed_witness :
  (recognizeCowBreed (engine_decoding (inl "Unexpected token < in JSON")) ai0
     "aGVsbG8=" "image/png" replied).1
  = Normal (error_object (VStr "API Error: Unexpected token < in JSON")).
Proof.
  apply (recognize_malformed (engine_decoding (inl "Unexpected token < in JSON")) ai0
           "aGVsbG8=" "image/png" replied "reply"); reflexivity.
Defined.

Lemma recognize_error_any_witness :
  (recognizeCowBreed
     (engine_decoding (inr (VObj {[ "error" := VNum 404%float; "breed" := VStr "Angus" ]})))
     ai0 "aGVsbG8=" "image/png" replied).1
  = Normal (error_object (VNum 404%float)).
Proof.
  apply (recognize_error_any
           (engine_decoding (inr (VObj {[ "error" := VNum 404%float; "breed" := VStr "Angus" ]})))
           ai0 "aGVsbG8=" "image/png" replied "reply"
           {[ "error" := VNum 404%float; "breed" := VStr "Angus" ]} (VNum 404%float)).
  - reflexivity.
  - reflexivity.
  - vm_compute. reflexivity.
  - vm_compute. reflexivity.
Defined.

Lemma credential_reaches_service_witness :
  exists m,
    import_module (engine_decoding (inr VNull)) (Some "secret") = Normal m /\
    forall image mimeType w,
      calls (export_recognizeCowBreed m image mimeType w).2 =
      (calls w ++ [ {| call_apiKey := "secret";
                       call_method := generateContent_method;
                       call_request := build_request image mimeType |} ])%list.
Proof.
  apply (credential_reaches_service (engine_decoding (inr VNull)) "secret").
  discriminate.
Defined.

End AdapterMore.

(** ** Further properties of the shell *)

Module ShellMore.
Import Shell Samples ShellSpec.

(** *** [split] and the payload of a data URL *)

Lemma split_on_nonempty sep s : split_on sep s <> [].
Proof.
  destruct s as [|c rest]; simpl; [discriminate|].
  destruct (Ascii.eqb c sep); [discriminate|].
  destruct (split_on sep rest); discriminate.
Qed.

(** Joining the pieces of [split] with the separator gives the
    string back. *)
Theorem split_on_concat sep s :
  String.concat (String sep "") (split_on sep s) = s.
Proof.
  induction s as [|c rest IH]; [reflexivity|]. simpl.
  destruct (Ascii.eqb c sep) eqn:Hc.
  - apply Ascii.eqb_eq in Hc. subst c.
    pose proof (split_on_nonempty sep rest) as Hne.
    destruct (split_on sep rest) as [|piece pieces]; [congruence|].
    simpl in *. rewrite IH. reflexivity.
  - destruct (split_on sep rest) as [|piece pieces] eqn:Hsplit.
    + exfalso. exact (split_on_nonempty sep rest Hsplit).
    + destruct pieces as [|next others]; simpl in *; rewrite <- IH; reflexivity.
Qed.

(** No piece of [split] contains the separator. *)
Theorem split_on_pieces sep s :
  Forall (fun piece => occurs sep piece = false) (split_on sep s).
Proof.
  induction s as [|c rest IH]; simpl.
  - constructor; [reflexivity|constructor].
  - destruct (Ascii.eqb c sep) eqn:Hc.
    + constructor; [reflexivity|exact IH].
    + destruct (split_on sep rest) as [|piece pieces].
      * constructor; [simpl; rewrite Hc; reflexivity|constructor].
      * inversion IH as [|? ? Hpiece Hrest]; subst.
        constructor; [simpl; rewrite Hc; exact Hpiece|exact Hrest].
Qed.

Lemma split_on_absent sep s : occurs sep s = false -> split_on sep s = [s].
Proof.
  induction s as [|c rest IH]; simpl; [reflexivity|].
  intros H. apply orb_false_elim in H as [Hc Hrest].
  rewrite Hc, (IH Hrest). reflexivity.
Qed.

Lemma split_on_app sep header rest :
  occurs sep header = false ->
  split_on sep (header ++ String sep rest) = header :: split_on sep rest.
Proof.
  induction header as [|c header IH]; simpl.
  - intros _. rewrite Ascii.eqb_refl. reflexivity.
  - intros H. apply orb_false_elim in H as [Hc Hheader].
    rewrite Hc, (IH Hheader). reflexivity.
Qed.

Lemma base64String_payload header payload :
  occurs ","%char header = false ->
  occurs ","%char payload = false ->
  base64String (header ++ "," ++ payload) = VStr payload.
Proof.
  intros Hheader Hpayload. unfold base64String.
  change (header ++ "," ++ payload) with (header ++ String ","%char payload).
  rewrite (split_on_app _ _ _ Hheader), (split_on_absent _ _ Hpayload).
  reflexivity.
Qed.

Lemma base64String_no_comma result :
  occurs ","%char result = false -> base64String result = VUndefined.
Proof.
  intros H. unfold base64String. rewrite (split_on_absent _ _ H). reflexivity.
Qed.

Section Facts.
Context (E : engine).
Implicit Types (x : session) (s : state) (e : event) (es : list event).

(** X11. When the reader delivers a data URL, a header without comma, a
    comma and a payload without comma, the adapter is called with exactly
    the payload and with the media type of the file being read; the
    component's state is not touched. *)
Theorem onload_passes_payload x id file header payload :
  tasks x !! id = Some {| task_file := file; task_phase := Reading |} ->
  occurs ","%char header = false ->
  occurs ","%char payload = false ->
  let x' := step E x (ReaderLoad id (header ++ "," ++ payload)) in
  tasks x' !! id
  = Some {| task_file := file;
            task_phase := Recognizing (VStr payload) (file_type file) |} /\
  ui x' = ui x.
Proof.
  intros Hid Hheader Hpayload. simpl. unfold reader_onload. rewrite Hid.
  change (match split_on "," (header ++ "," ++ payload) !! 1%nat with
          | Some piece => VStr piece
          | None => VUndefined
          end) with (base64String (header ++ "," ++ payload)).
  rewrite (base64String_payload _ _ Hheader Hpayload). simpl.
  split; [apply lookup_insert_eq|reflexivity].
Qed.

(** X12. When the text the reader delivers has no comma, the adapter is
    still called, with [undefined] in place of the image data. *)
Theorem onload_without_comma x id file result :
  tasks x !! id = Some {| task_file := file; task_phase := Reading |} ->
  occurs ","%char result = false ->
  tasks (step E x (ReaderLoad id result)) !! id
  = Some {| task_file := file;
            task_phase := Recognizing VUndefined (file_type file) |}.
Proof.
  intros Hid Hresult. simpl. unfold reader_onload. rewrite Hid.
  change (match split_on "," result !! 1%nat with
          | Some piece => VStr piece
          | None => VUndefined
          end) with (base64String result).
  rewrite (base64String_no_comma _ Hresult). simpl. apply lookup_insert_eq.
Qed.

(** *** Invariants of a session *)

Lemma paired_step x e : paired (ui x) -> paired (ui (step E x e)).
Proof.
  intros Hp. destruct e as [file url|fault| |id result|id|id result]; simpl.
  - destruct file; [|exact Hp]. split; discriminate.
  - destruct (recognize_disabled (ui x)); [exact Hp|].
    unfold handleRecognize. destruct (imageFile (ui x)); [|exact Hp].
    destruct fault; exact Hp.
  - destruct (clear_rendered (ui x)); [|exact Hp]. split; reflexivity.
  - unfold reader_onload.
    destruct (tasks x !! id) as [[file [|b64 mime]]|]; exact Hp.
  - unfold reader_onerror.
    destruct (tasks x !! id) as [[file [|b64 mime]]|]; exact Hp.
  - unfold reader_onload_resume.
    destruct (tasks x !! id) as [[file [|b64 mime]]|]; try exact Hp.
    destruct (get E result "error") as [err|thrown]; [destruct (truthy err)|];
      exact Hp.
Qed.

(** X13. Whatever happens in a session, a file is selected exactly when an
    image URL is held: the two cells are set together and cleared
    together. *)
Theorem file_and_url_paired es : paired (ui (run E es start)).
Proof.
  unfold run. generalize start, (conj (fun _ : imageFile initial = None => eq_refl)
                                      (fun _ : imageUrl initial = None => eq_refl)
                                  : paired (ui start)).
  induction es as [|e es IH]; intros x Hx; [exact Hx|].
  simpl. apply IH, paired_step, Hx.
Qed.

Lemma one_outcome_step x e :
  is_clear e = false -> single_flight x -> one_outcome x ->
  one_outcome (step E x e).
Proof.
  intros Hclear [Hsize Hidle] [Hflight Hone].
  destruct e as [file url|fault| |id result|id|id result];
    simpl in *; try discriminate.
  - destruct file; [|split; assumption]. split; simpl; auto.
  - unfold recognize_disabled, handleRecognize.
    destruct (imageFile (ui x)) as [file|]; [|split; assumption].
    destruct (isLoading (ui x)); [split; assumption|].
    specialize (Hidle eq_refl).
    destruct fault as [err|]; split; simpl; auto.
    intros Hne. congruence.
  - unfold reader_onload.
    destruct (tasks x !! id) as [[file [|b64 mime]]|] eqn:Hid; try (split; assumption).
    split; simpl; [|exact Hone]. intros _. apply Hflight.
    intros Hnone. rewrite Hnone, lookup_empty in Hid. discriminate.
  - unfold reader_onerror.
    destruct (tasks x !! id) as [[file [|b64 mime]]|] eqn:Hid; try (split; assumption).
    assert (tasks x <> ∅) as Hbusy
      by (intros Hnone; rewrite Hnone, lookup_empty in Hid; discriminate).
    destruct (Hflight Hbusy) as [_ Hbreed].
    split; simpl; [|right; exact Hbreed].
    rewrite (delete_last _ _ Hsize (ltac:(eauto))). congruence.
  - unfold reader_onload_resume.
    destruct (tasks x !! id) as [[file [|b64 mime]]|] eqn:Hid; try (split; assumption).
    assert (tasks x <> ∅) as Hbusy
      by (intros Hnone; rewrite Hnone, lookup_empty in Hid; discriminate).
    destruct (Hflight Hbusy) as [Herr Hbreed].
    pose proof (delete_last _ _ Hsize (ltac:(eauto) : is_Some (tasks x !! id))) as Hnone.
    destruct (get E result "error") as [err|thrown];
      [destruct (truthy err)|]; split; simpl; rewrite ?Hnone; auto; congruence.
Qed.

Lemma both_step x e :
  is_clear e = false -> single_flight x /\ one_outcome x ->
  single_flight (step E x e) /\ one_outcome (step E x e).
Proof.
  intros Hclear [Hs Ho]. split.
  - apply single_flight_step; assumption.
  - apply one_outcome_step; assumption.
Qed.

(** X14. As long as Clear is not pressed, the component never holds an
    error and a result together, and holds neither while a reader is in
    flight. *)
Theorem never_error_and_result es :
  forallb (fun e => negb (is_clear e)) es = true ->
  one_outcome (run E es start).
Proof.
  intros Hes.
  assert (single_flight start /\ one_outcome start) as Hstart.
  { split; [apply single_flight_start|]. split; [|left; reflexivity].
    intros H. exfalso. apply H. reflexivity. }
  revert Hes Hstart. unfold run. generalize start.
  induction es as [|e es IH]; intros x Hes Hx; [exact (proj2 Hx)|].
  simpl in Hes. apply andb_prop in Hes as [He Hes].
  simpl. apply (IH _ Hes). apply both_step; [|exact Hx].
  destruct (is_clear e); [discriminate|reflexivity].
Qed.

(** X15. As long as Clear is not pressed, a reader in flight is always
    visible: the flag is up, the Recognize button is disabled and reads
    [Recognizing...], and the panel shows the loader. *)
Theorem busy_is_visible es :
  forallb (fun e => negb (is_clear e)) es = true ->
  tasks (run E es start) <> ∅ ->
  let s := ui (run E es start) in
  isLoading s = true /\
  recognize_disabled s = true /\
  recognize_label s = "Recognizing..." /\
  panel s = Loader.
Proof.
  intros Hes Hbusy.
  destruct (single_flight_run E es start Hes single_flight_start) as [_ Hidle].
  simpl. unfold recognize_disabled, recognize_label, panel.
  destruct (isLoading (ui (run E es start))).
  - destruct (imageFile (ui (run E es start))); auto.
  - exfalso. apply Hbusy, Hidle. reflexivity.
Qed.

(** *** The adapter's result in the shell *)

(** X16. When the value that [recognizeCowBreed] returns reaches the
    callback waiting for it, and no error is held, the busy flag goes
    down and the reader is done. For a failure the panel shows its error
    when React can render it (a text, as every failure the adapter words
    itself is; a number; an array of such) and the render throws when it
    cannot (an object passed through from the response); for a success
    the panel shows the success itself. *)
Theorem completion_is_shown ai image mimeType w x id file :
  tasks x !! id
  = Some {| task_file := file; task_phase := Recognizing (VStr image) mimeType |} ->
  error (ui x) = None ->
  exists r,
    (Adapter.recognizeCowBreed E ai image mimeType w).1 = Normal r /\
    let x' := step E x (AdapterReturn id r) in
    isLoading (ui x') = false /\
    tasks x' = delete id (tasks x) /\
    ((exists v, r = Adapter.error_object v /\
        panel (ui x') = if renderable v then ErrorMessage v else Broken) \/
     (Adapter.arm_populated r "breed" = true /\ panel (ui x') = ResultDisplay r)).
Proof.
  intros Hid Herror.
  destruct (AdapterMore.recognize_shape E ai image mimeType w)
    as (r & Hr & [(v & -> & Hv)|(props & -> & He & Hb)]);
    (eexists; split; [exact Hr|]); simpl; unfold reader_onload_resume; rewrite Hid.
  - unfold Adapter.error_object. simpl. rewrite lookup_singleton_eq. simpl.
    rewrite Hv. simpl. split; [reflexivity|]. split; [reflexivity|].
    left. exists v. split; [reflexivity|].
    unfold panel. simpl. rewrite Hv. reflexivity.
  - simpl. unfold Adapter.populated in He. rewrite He. simpl.
    split; [reflexivity|]. split; [reflexivity|].
    right. split; [exact Hb|].
    unfold panel. simpl. rewrite Herror. reflexivity.
Qed.

(** X17. Choosing another image while a recognition is outstanding neither
    cancels it nor lowers the flag: when the success for the former image
    arrives it is stored as the result, beside the newly selected file. *)
Theorem image_change_keeps_call x id file b64 mime other url result err :
  tasks x !! id = Some {| task_file := file; task_phase := Recognizing b64 mime |} ->
  get E result "error" = Normal err ->
  truthy err = false ->
  let changed := step E x (ImageChange (Some other) url) in
  let x' := step E changed (AdapterReturn id result) in
  isLoading (ui changed) = isLoading (ui x) /\
  tasks changed = tasks x /\
  imageFile (ui x') = Some other /\
  breedInfo (ui x') = Some result /\
  isLoading (ui x') = false.
Proof.
  intros Hid Hget Herr. simpl. unfold reader_onload_resume. simpl.
  rewrite Hid, Hget, Herr. simpl. repeat split.
Qed.

(** X18. The callbacks keep the file that was selected when Recognize was
    clicked: if another image is chosen before the reader delivers, the
    adapter is still called with the media type of the former file. *)
Theorem callback_keeps_file x file other url result :
  imageFile (ui x) = Some file ->
  isLoading (ui x) = false ->
  let x' := run E [ClickRecognize None; ImageChange (Some other) url;
                   ReaderLoad (readers x) result] x in
  imageFile (ui x') = Some other /\
  tasks x' !! readers x
  = Some {| task_file := file;
            task_phase := Recognizing (base64String result) (file_type file) |}.
Proof.
  intros Hfile Hidle. simpl. unfold recognize_disabled, handleRecognize.
  rewrite Hfile, Hidle. simpl. unfold reader_onload. simpl.
  rewrite lookup_insert_eq. simpl. split; [reflexivity|].
  apply lookup_insert_eq.
Qed.

(** X19. When the only reader in flight fails, before the adapter is
    called, nothing is left in flight, the flag goes down and the panel
    shows that the file could not be read. *)
Theorem read_failure_is_shown x id file :
  single_flight x ->
  tasks x !! id = Some {| task_file := file; task_phase := Reading |} ->
  let x' := step E x (ReaderError id) in
  tasks x' = ∅ /\
  isLoading (ui x') = false /\
  panel (ui x') = ErrorMessage (VStr "Failed to read the image file.").
Proof.
  intros [Hsize _] Hid. simpl. unfold reader_onerror. rewrite Hid. simpl.
  split; [apply delete_last; eauto|]. split; reflexivity.
Qed.
End Facts.

Lemma onload_passes_payload_witness :
  let x' := step (engine_decoding (inr VNull)) reading
              (ReaderLoad 0 ("data:image/png;base64" ++ "," ++ "AAAA")) in
  tasks x' !! 0
  = Some {| task_file := cow1;
            task_phase := Recognizing (VStr "AAAA") (file_type cow1) |} /\
  ui x' = ui reading.
Proof.
  apply (onload_passes_payload (engine_decoding (inr VNull)) reading 0 cow1
           "data:image/png;base64" "AAAA"); reflexivity.
Defined.

Lemma onload_without_comma_witness :
  tasks (step (engine_decoding (inr VNull)) reading (ReaderLoad 0 "data:")) !! 0
  = Some {| task_file := cow1;
            task_phase := Recognizing VUndefined (file_type cow1) |}.
Proof.
  apply (onload_without_comma (engine_decoding (inr VNull)) reading 0 cow1 "data:");
    reflexivity.
Defined.

Lemma never_error_and_result_witness :
  one_outcome (run (engine_decoding (inr VNull)) plain_recognition start).
Proof.
  apply (never_error_and_result (engine_decoding (inr VNull)) plain_recognition).
  reflexivity.
Defined.

Lemma busy_is_visible_witness :
  let s := ui (run (engine_decoding (inr VNull)) (take 3 plain_recognition) start) in
  isLoading s = true /\
  recognize_disabled s = true /\
  recognize_label s = "Recognizing..." /\
  panel s = Loader.
Proof.
  apply (busy_is_visible (engine_decoding (inr VNull)) (take 3 plain_recognition)).
  - reflexivity.
  - intros H. apply (f_equal (fun m => m !! 0)) in H. vm_compute in H. discriminate H.
Defined.

Lemma completion_is_shown_witness :
  exists r,
    (Adapter.recognizeCowBreed (engine_decoding (inr (VObj holstein))) ai0
       "aGVsbG8=" "image/png" replied).1 = Normal r /\
    let x' := step (engine_decoding (inr (VObj holstein))) awaiting (AdapterReturn 0 r) in
    isLoading (ui x') = false /\
    tasks x' = delete 0 (tasks awaiting) /\
    ((exists v, r = Adapter.error_object v /\
        panel (ui x') = if renderable v then ErrorMessage v else Broken) \/
     (Adapter.arm_populated r "breed" = true /\ panel (ui x') = ResultDisplay r)).
Proof.
  apply (completion_is_shown (engine_decoding (inr (VObj holstein))) ai0
           "aGVsbG8=" "image/png" replied awaiting 0 cow1); reflexivity.
Defined.

(** An error that is an object, passed through from the response, breaks
    the render; a text is shown. *)
Example object_error_breaks_render :
  let E := engine_decoding
             (inr (VObj {[ "error" := VObj {[ "code" := VNum 5%float ]} ]})) in
  exists r,
    (Adapter.recognizeCowBreed E ai0 "aGVsbG8=" "image/png" replied).1 = Normal r /\
    panel (ui (step E awaiting (AdapterReturn 0 r))) = Broken.
Proof. eexists. split; vm_compute; reflexivity. Qed.

Example text_error_is_shown :
  let E := engine_decoding (inr (VObj no_cow)) in
  exists r,
    (Adapter.recognizeCowBreed E ai0 "aGVsbG8=" "image/png" replied).1 = Normal r /\
    panel (ui (step E awaiting (AdapterReturn 0 r)))
    = ErrorMessage (VStr "No cow was detected in the provided image.").
Proof. eexists. split; vm_compute; reflexivity. Qed.

Lemma image_change_keeps_call_witness :
  let changed := step (engine_decoding (inr VNull)) awaiting
                   (ImageChange (Some cow2) "blob:2") in
  let x' := step (engine_decoding (inr VNull)) changed
              (AdapterReturn 0 (VObj holstein)) in
  isLoading (ui changed) = isLoading (ui awaiting) /\
  tasks changed = tasks awaiting /\
  imageFile (ui x') = Some cow2 /\
  breedInfo (ui x') = Some (VObj holstein) /\
  isLoading (ui x') = false.
Proof.
  apply (image_change_keeps_call (engine_decoding (inr VNull)) awaiting 0 cow1
           (VStr "aGVsbG8=") "image/png" cow2 "blob:2" (VObj holstein) VUndefined);
    reflexivity.
Defined.

Lemma callback_keeps_file_witness :
  let x' := run (engine_decoding (inr VNull))
              [ClickRecognize None; ImageChange (Some cow2) "blob:2";
               ReaderLoad (readers picked) "data:image/png;base64,AAAA"] picked in
  imageFile (ui x') = Some cow2 /\
  tasks x' !! readers picked
  = Some {| task_file := cow1;
            task_phase := Recognizing (base64String "data:image/png;base64,AAAA")
                            (file_type cow1) |}.
Proof.
  apply (callback_keeps_file (engine_decoding (inr VNull)) picked cow1 cow2 "blob:2"
           "data:image/png;base64,AAAA"); reflexivity.
Defined.

Lemma read_failure_is_shown_witness :
  let x' := step (engine_decoding (inr VNull)) reading (ReaderError 0) in
  tasks x' = ∅ /\
  isLoading (ui x') = false /\
  panel (ui x') = ErrorMessage (VStr "Failed to read the image file.").
Proof.
  apply (read_failure_is_shown (engine_decoding (inr VNull)) reading 0 cow1).
  - split; [vm_compute; lia | discriminate].
  - reflexivity.
Defined.

End ShellMore.
